(** * CloudOps AI Insights: a shallow embedding of [app/ai-insights/main.py]

    The service has two pieces: the metric fetcher [q], which runs one
    Prometheus instant query and turns every failure into NaN, and the
    request handler [insights_now], which fetches three utilisation
    percentages and applies fixed threshold rules to them.

    Python values are modelled by the inductive type [pyval], Python floats
    by IEEE 754 binary64 values ([spec_float] with precision 53 and maximal
    exponent 1024), exceptions and the outbound HTTP calls by a small
    state-and-error monad whose state is the trace of requests sent. *)

From Stdlib Require Import ZArith List String Ascii Bool Lia.
From Stdlib Require Import Floats.SpecFloat.
From Stdlib Require Import Numbers.DecimalString.
Import ListNotations.

Set Warnings "-register-all".

Local Open Scope string_scope.
Local Open Scope Z_scope.

(** ** Python floats *)

Module PyFloat.

Definition float := spec_float.

Definition prec : Z := 53.
Definition emax : Z := 1024.

(** [float("nan")] *)
Definition nan : float := S754_nan.

(** Conversion of a Python [int] to the nearest float (ties to even).
    The result is an infinity exactly when Python raises [OverflowError]. *)
Definition of_int (z : Z) : float := binary_normalize prec emax z 0 false.

(** [x != y], [x > n] and [x < n] for a float [x] and a small int [n]:
    Python compares the exact values, and every comparison with NaN but
    [!=] is false. *)
Definition ne (x y : float) : bool := negb (SFeqb x y).
Definition gt_int (x : float) (n : Z) : bool := SFltb (of_int n) x.
Definition lt_int (x : float) (n : Z) : bool := SFltb x (of_int n).
Definition ge_int (x : float) (n : Z) : bool := SFleb (of_int n) x.
Definition le_int (x : float) (n : Z) : bool := SFleb x (of_int n).

(** [bool(x)]: a float is false exactly when it is a zero. *)
Definition truthy (x : float) : bool :=
  match x with
  | S754_zero _ => false
  | _ => true
  end.

(** Decimal digits of a natural number. *)
Definition digits (n : Z) : string :=
  NilZero.string_of_uint (N.to_uint (Z.to_N n)).

(** The value [10 * m * 2^e] rounded to the nearest integer, ties to even:
    the number of tenths that [format(x, ".1f")] prints. *)
Definition tenths (m : positive) (e : Z) : Z :=
  let n := 10 * Zpos m in
  if 0 <=? e then n * 2 ^ e
  else
    let d := 2 ^ (- e) in
    let k := n / d in
    match (2 * (n mod d)) ?= d with
    | Lt => k
    | Gt => k + 1
    | Eq => if Z.even k then k else k + 1
    end.

Definition sign_str (s : bool) : string := if s then "-" else EmptyString.

(** [f"{x:.1f}"]: fixed notation with one digit after the point, correctly
    rounded from the exact binary value. *)
Definition format_1f (x : float) : string :=
  match x with
  | S754_nan => "nan"
  | S754_infinity s => sign_str s ++ "inf"
  | S754_zero s => sign_str s ++ "0.0"
  | S754_finite s m e =>
      let t := tenths m e in
      sign_str s ++ digits (t / 10) ++ "." ++ digits (t mod 10)
  end.

End PyFloat.

Import PyFloat.

(** ** The response models *)

Record Insight := mkInsight {
  title : string;
  severity : string;  (* info|warning|critical *)
  description : string;
  recommendations : list string
}.

(** ** Python values, as [json.loads] builds them *)

Inductive pyval :=
| PNone
| PBool (b : bool)
| PInt (z : Z)
| PFloat (f : float)
| PStr (s : string)
| PList (l : list pyval)
| PDict (d : list (string * pyval)).

Record InsightResponse := mkInsightResponse {
  status : string;
  insights : list Insight;
  raw : list (string * pyval)
}.

(** Exceptions the modelled operations raise; all derive from [Exception]. *)
Inductive exn :=
| Timeout | ConnectionError | RequestException | HTTPError | JSONDecodeError
| AttributeError | KeyError | TypeError | IndexError | ValueError
| OverflowError.

Inductive result (A : Type) :=
| Ok (a : A)
| Raise (e : exn).
Arguments Ok {A} a.
Arguments Raise {A} e.

(** Dictionaries have string keys; a lookup returns the first binding. *)
Fixpoint lookup {A : Type} (k : string) (d : list (string * A)) : option A :=
  match d with
  | [] => None
  | (k', v) :: d' => if String.eqb k k' then Some v else lookup k d'
  end.

(** A [str] is a sequence of code points; strings are kept in UTF-8, so a
    character is a lead byte with the continuation bytes that follow it. *)
Definition is_continuation (c : ascii) : bool :=
  let n := Z.of_nat (nat_of_ascii c) in (128 <=? n) && (n <? 192).

Fixpoint utf8_split (s : string) : string * list string :=
  match s with
  | EmptyString => (EmptyString, [])
  | String c rest =>
      let '(pending, cs) := utf8_split rest in
      if is_continuation c then (String c pending, cs)
      else (EmptyString, String c pending :: cs)
  end.

Definition chars (s : string) : list string :=
  let '(pending, cs) := utf8_split s in
  match pending with
  | EmptyString => cs
  | _ => pending :: cs
  end.

(** [bool(v)] *)
Definition truthy (v : pyval) : bool :=
  match v with
  | PNone => false
  | PBool b => b
  | PInt z => negb (z =? 0)
  | PFloat f => PyFloat.truthy f
  | PStr s => negb (String.eqb s EmptyString)
  | PList l => match l with [] => false | _ => true end
  | PDict d => match d with [] => false | _ => true end
  end.

(** [v != s] for a string literal [s] *)
Definition ne_str (v : pyval) (s : string) : bool :=
  match v with
  | PStr s' => negb (String.eqb s' s)
  | _ => true
  end.

(** [v.get(k, default)]: only a dict has the method. *)
Definition py_get (v : pyval) (k : string) (default : pyval) : result pyval :=
  match v with
  | PDict d =>
      match lookup k d with
      | Some x => Ok x
      | None => Ok default
      end
  | _ => Raise AttributeError
  end.

(** [v[k]] for a string key [k] *)
Definition getitem_str (v : pyval) (k : string) : result pyval :=
  match v with
  | PDict d =>
      match lookup k d with
      | Some x => Ok x
      | None => Raise KeyError
      end
  | _ => Raise TypeError
  end.

(** Sequence indexing with Python's negative indices. *)
Definition seq_index {A : Type} (l : list A) (i : Z) : result A :=
  let n := Z.of_nat (List.length l) in
  let j := if i <? 0 then i + n else i in
  if (j <? 0) || (n <=? j) then Raise IndexError
  else
    match nth_error l (Z.to_nat j) with
    | Some x => Ok x
    | None => Raise IndexError
    end.

(** [v[i]] for an integer index [i]; the keys of a parsed JSON object are
    strings, so an integer key is never found in a dict. *)
Definition getitem_int (v : pyval) (i : Z) : result pyval :=
  match v with
  | PList l => seq_index l i
  | PStr s =>
      match seq_index (chars s) i with
      | Ok c => Ok (PStr c)
      | Raise e => Raise e
      end
  | PDict _ => Raise KeyError
  | _ => Raise TypeError
  end.

(** [isinstance(v, (int, float))]; [bool] is a subclass of [int]. *)
Definition isinstance_int_float (v : pyval) : bool :=
  match v with
  | PBool _ | PInt _ | PFloat _ => true
  | _ => false
  end.

Definition safe (v : pyval) (default : pyval) : pyval :=
  if isinstance_int_float v then v else default.

(** The default of [safe]'s second parameter. *)
Definition safe_default : pyval := PFloat nan.

(** The float held by a value that is known to be one. *)
Definition as_float (v : pyval) : float :=
  match v with
  | PFloat f => f
  | _ => nan
  end.

(** ** Outbound HTTP *)

Record Request := mkRequest {
  url : string;
  params : list (string * string);
  timeout : Z
}.

(** What [requests] hands back: the status code and the body as parsed by
    [r.json()], [None] when the body is not JSON. *)
Record Response := mkResponse {
  status_code : Z;
  body : option pyval
}.

(** [requests.get] either raises (time-out, refused connection, ...) or
    returns a response. *)
Inductive http_outcome :=
| Failed (e : exn)
| Responded (r : Response).

(** The requests sent so far, oldest first. *)
Definition trace := list Request.

(** ** Computations: exceptions and the trace of outbound calls *)

Definition M (A : Type) : Type := trace -> result A * trace.

Definition ret {A : Type} (a : A) : M A := fun tr => (Ok a, tr).

Definition raise {A : Type} (e : exn) : M A := fun tr => (Raise e, tr).

Definition bind {A B : Type} (c : M A) (k : A -> M B) : M B :=
  fun tr =>
    match c tr with
    | (Ok a, tr') => k a tr'
    | (Raise e, tr') => (Raise e, tr')
    end.

Definition lift {A : Type} (r : result A) : M A := fun tr => (r, tr).

(** [try: body  except Exception: handler] *)
Definition try_except {A : Type} (body : M A) (handler : exn -> M A) : M A :=
  fun tr =>
    match body tr with
    | (Ok a, tr') => (Ok a, tr')
    | (Raise e, tr') => handler e tr'
    end.

Declare Scope py_scope.
Delimit Scope py_scope with py.
Notation "x <- c ;; k" := (bind c (fun x => k))
  (at level 61, c at next level, right associativity) : py_scope.
Notation "c ;;; k" := (bind c (fun _ => k))
  (at level 61, right associativity) : py_scope.
Local Open Scope py_scope.

(** [r.raise_for_status()] *)
Definition raise_for_status (r : Response) : M unit :=
  if (400 <=? status_code r) && (status_code r <? 600) then raise HTTPError
  else ret tt.

(** [r.json()] *)
Definition json (r : Response) : M pyval :=
  match body r with
  | Some v => ret v
  | None => raise JSONDecodeError
  end.

(** The double quote character, for the query strings. *)
Definition dq : string := String "034"%char EmptyString.

(** ** The rules of [insights_now] *)

(** [insights.append(i)] *)
Definition append (insights : list Insight) (i : Insight) : list Insight :=
  (insights ++ [i])%list.

Definition no_cpu_metrics : Insight :=
  mkInsight
    "No CPU metrics"
    "warning"
    "Prometheus query returned no CPU data. Node exporter or scrape config may be missing."
    ["Verify kube-prometheus-stack is installed and node-exporter is running.";
     "Check Prometheus targets page for scrape errors."].

Definition high_cpu (cpu : float) : Insight :=
  mkInsight
    ("High CPU usage (" ++ format_1f cpu ++ "%)")
    "critical"
    "Sustained CPU > 85% can cause throttling and latency."
    ["Scale up EC2 instance (t3.medium → t3.large) or add a node.";
     "Enable HPA for busy workloads (target 60–70% CPU)."].

Definition low_cpu (cpu : float) : Insight :=
  mkInsight
    ("Low CPU headroom (" ++ format_1f cpu ++ "%)")
    "info"
    "CPU usage is consistently low—over-provisioning likely."
    ["Consider downsizing to t3.small or t3.micro to save cost.";
     "Consolidate low-traffic workloads."].

Definition no_mem_metrics : Insight :=
  mkInsight
    "No Memory metrics"
    "warning"
    "Prometheus query returned no Memory data."
    ["Confirm node-exporter and proper scrape configs."].

Definition high_mem (mem : float) : Insight :=
  mkInsight
    ("High Memory usage (" ++ format_1f mem ++ "%)")
    "critical"
    "Memory pressure increases OOM risk."
    ["Increase instance memory (t3.medium→t3.large).";
     "Tune pod requests/limits; enable VPA if appropriate."].

Definition low_mem (mem : float) : Insight :=
  mkInsight
    ("Low Memory usage (" ++ format_1f mem ++ "%)")
    "info"
    "Plenty of unused memory—potential cost optimization."
    ["Downsize instance or pack more workloads.";
     "Reduce pod memory limits if set too high."].

Definition no_disk_metrics : Insight :=
  mkInsight
    "No Disk metrics"
    "warning"
    "Prometheus query returned no Disk data for '/'."
    ["Verify node-exporter mount points and filesystem metrics."].

Definition high_disk (disk : float) : Insight :=
  mkInsight
    ("Disk usage high (" ++ format_1f disk ++ "%)")
    "critical"
    "Running low on disk can crash pods and databases."
    ["Expand root volume (gp3) from 30GB to 50GB+, then grow FS.";
     "Prune images and old logs; add retention policies."].

Definition low_disk (disk : float) : Insight :=
  mkInsight
    ("Disk usage healthy (" ++ format_1f disk ++ "%)")
    "info"
    "No immediate storage pressure."
    ["Keep image pruning and log rotation in place."].

(** Tiny cost heuristic (static). *)
Definition cost_hint : Insight :=
  mkInsight
    "Cost heuristic"
    "info"
    "Approximate instance rightsizing suggestion based on CPU/Memory."
    ["If CPU<20% and Mem<30% for 24h: consider t3.small (~50% cheaper).";
     "If CPU>85% or Mem>85% often: consider t3.large or add a node."].

(** The three [if]/[else] blocks of [insights_now], each threading the
    list [insights] it appends to. *)
Definition cpu_rules (cpu : float) (insights : list Insight) : list Insight :=
  if ne cpu cpu then (* NaN check *)
    append insights no_cpu_metrics
  else if gt_int cpu 85 then append insights (high_cpu cpu)
  else if lt_int cpu 20 then append insights (low_cpu cpu)
  else insights.

Definition mem_rules (mem : float) (insights : list Insight) : list Insight :=
  if ne mem mem then append insights no_mem_metrics
  else if gt_int mem 85 then append insights (high_mem mem)
  else if lt_int mem 30 then append insights (low_mem mem)
  else insights.

Definition disk_rules (disk : float) (insights : list Insight) : list Insight :=
  if ne disk disk then append insights no_disk_metrics
  else if gt_int disk 80 then append insights (high_disk disk)
  else if lt_int disk 50 then append insights (low_disk disk)
  else insights.

(** The body of [insights_now] from [insights = []] to
    [insights.append(cost_hint)]: the insight list for a fetched triple. *)
Definition generate (cpu mem disk : float) : list Insight :=
  let insights := [] in
  let insights := cpu_rules cpu insights in
  let insights := mem_rules mem insights in
  let insights := disk_rules disk insights in
  append insights cost_hint.

Definition cpu_query : string :=
  "100 - (avg by (instance) (rate(node_cpu_seconds_total{mode=" ++ dq
  ++ "idle" ++ dq ++ "}[5m])) * 100)".

Definition mem_query : string :=
  "100 * (1 - (avg by (instance) (node_memory_MemAvailable_bytes) / avg by (instance) (node_memory_MemTotal_bytes)))".

Definition disk_query : string :=
  "100 - (avg by (instance) (node_filesystem_avail_bytes{fstype!~" ++ dq
  ++ "tmpfs|overlay" ++ dq ++ ",mountpoint=" ++ dq ++ "/" ++ dq
  ++ "} / node_filesystem_size_bytes{fstype!~" ++ dq ++ "tmpfs|overlay" ++ dq
  ++ ",mountpoint=" ++ dq ++ "/" ++ dq ++ "} * 100))".

(** ** The service *)

Section Service.

(** The environment variable [PROM_URL], if set. *)
Variable env_PROM_URL : option string.

(** The builtin [float] on strings; [None] stands for [ValueError]. *)
Variable float_of_str : string -> option float.

(** The network: the outcome of a request, given the requests sent before. *)
Variable network : trace -> Request -> http_outcome.

Definition PROM_URL : string :=
  match env_PROM_URL with
  | Some u => u
  | None => "http://localhost:9090"
  end.

(** [requests.get(url, params={"query": query}, timeout=t)] *)
Definition requests_get (u : string) (query : string) (t : Z) : M Response :=
  fun tr =>
    let rq := mkRequest u [("query", query)] t in
    match network tr rq with
    | Failed e => (Raise e, (tr ++ [rq])%list)
    | Responded r => (Ok r, (tr ++ [rq])%list)
    end.

(** The builtin [float]. *)
Definition py_float (v : pyval) : result float :=
  match v with
  | PFloat f => Ok f
  | PInt z =>
      match of_int z with
      | S754_infinity _ => Raise OverflowError
      | f => Ok f
      end
  | PBool b => Ok (of_int (if b then 1 else 0))
  | PStr s =>
      match float_of_str s with
      | Some f => Ok f
      | None => Raise ValueError
      end
  | _ => Raise TypeError
  end.

(** Run a Prometheus instant query and return the first scalar/vector value
    as float. *)
Definition q (query : string) : M float :=
  try_except
    (r <- requests_get (PROM_URL ++ "/api/v1/query") query 8 ;;
     raise_for_status r ;;;
     data <- json r ;;
     st <- lift (py_get data "status" PNone) ;;
     if ne_str st "success" then ret nan
     else
       d <- lift (getitem_str data "data") ;;
       result <- lift (getitem_str d "result") ;;
       if negb (truthy result) then ret nan
       else
         (* take the first sample's value *)
         r0 <- lift (getitem_int result 0) ;;
         v <- lift (py_get r0 "value" PNone) ;;
         val <- (if truthy v then ret v
                 else
                   r0' <- lift (getitem_int result 0) ;;
                   vs <- lift (py_get r0' "values" (PList [PNone])) ;;
                   lift (getitem_int vs (-1))) ;;
         x <- lift (getitem_int val 1) ;;
         lift (py_float x))
    (fun _ => ret nan).

Definition healthz : M pyval :=
  ret (PDict [("ok", PBool true); ("prom", PStr PROM_URL)]).

(** [GET /insights/now] *)
Definition insights_now : M InsightResponse :=
  (* Node-wide (%). Requires node-exporter. *)
  c <- q cpu_query ;;
  let cpu := safe (PFloat c) safe_default in
  m <- q mem_query ;;
  let mem := safe (PFloat m) safe_default in
  d <- q disk_query ;;
  let disk := safe (PFloat d) safe_default in
  ret (mkInsightResponse
         "ok"
         (generate (as_float cpu) (as_float mem) (as_float disk))
         [("cpu_pct", cpu); ("mem_pct", mem); ("disk_pct", disk)]).

End Service.

(** ** Vocabulary of the properties *)

Inductive metric := CPU | Memory | Disk.

(** The threshold table: a value strictly above [high] is critical, one
    strictly below [low] is reported as low usage. *)
Definition high (k : metric) : Z :=
  match k with
  | CPU => 85
  | Memory => 85
  | Disk => 80
  end.

Definition low (k : metric) : Z :=
  match k with
  | CPU => 20
  | Memory => 30
  | Disk => 50
  end.

Definition missing_title (k : metric) : string :=
  match k with
  | CPU => "No CPU metrics"
  | Memory => "No Memory metrics"
  | Disk => "No Disk metrics"
  end.

Definition high_prefix (k : metric) : string :=
  match k with
  | CPU => "High CPU usage ("
  | Memory => "High Memory usage ("
  | Disk => "Disk usage high ("
  end.

Definition low_prefix (k : metric) : string :=
  match k with
  | CPU => "Low CPU headroom ("
  | Memory => "Low Memory usage ("
  | Disk => "Disk usage healthy ("
  end.

(** An insight is specific to a metric when its title is that metric's
    missing-data title or starts as one of its two threshold titles. *)
Definition is_missing (k : metric) (i : Insight) : bool :=
  String.eqb (title i) (missing_title k).

Definition is_high (k : metric) (i : Insight) : bool :=
  prefix (high_prefix k) (title i).

Definition is_low (k : metric) (i : Insight) : bool :=
  prefix (low_prefix k) (title i).

Definition specific (k : metric) (i : Insight) : bool :=
  is_missing k i || is_high k i || is_low k i.

Definition pick (k : metric) (cpu mem disk : float) : float :=
  match k with
  | CPU => cpu
  | Memory => mem
  | Disk => disk
  end.

(** The insights one metric's block appends to an empty list. *)
Definition block (k : metric) (x : float) : list Insight :=
  match k with
  | CPU => cpu_rules x []
  | Memory => mem_rules x []
  | Disk => disk_rules x []
  end.

(** What a block holds, by the case the value falls in. *)
Definition missing_insight (k : metric) : Insight :=
  match k with
  | CPU => no_cpu_metrics
  | Memory => no_mem_metrics
  | Disk => no_disk_metrics
  end.

Definition high_insight (k : metric) (x : float) : Insight :=
  match k with
  | CPU => high_cpu x
  | Memory => high_mem x
  | Disk => high_disk x
  end.

Definition low_insight (k : metric) (x : float) : Insight :=
  match k with
  | CPU => low_cpu x
  | Memory => low_mem x
  | Disk => low_disk x
  end.

(** The request [q] sends for a query. *)
Definition request_for (env_PROM_URL : option string) (query : string)
  : Request :=
  mkRequest (PROM_URL env_PROM_URL ++ "/api/v1/query") [("query", query)] 8.

(** A status code on which [raise_for_status] raises. *)
Definition http_error (code : Z) : Prop := 400 <= code < 600.

(** A parsed body with top-level status "success" whose [data.result] is
    [result]. *)
Definition success_body (result data : pyval) : Prop :=
  exists d dd,
    data = PDict d
    /\ lookup "status" d = Some (PStr "success")
    /\ lookup "data" d = Some (PDict dd)
    /\ lookup "result" dd = Some result.

(** The ways a fetch fails: the request itself, the HTTP status, the JSON
    parsing, the top-level status, missing fields, an empty result list, a
    first entry with neither [value] nor [values], a numeric string that
    does not parse. *)
Inductive fetch_failure (float_of_str : string -> option float)
  : http_outcome -> Prop :=
| failed_request (e : exn) :
    fetch_failure float_of_str (Failed e)
| error_status (code : Z) (b : option pyval) :
    http_error code ->
    fetch_failure float_of_str (Responded (mkResponse code b))
| not_json (code : Z) :
    fetch_failure float_of_str (Responded (mkResponse code None))
| status_not_success (code : Z) (data : pyval) :
    py_get data "status" PNone <> Ok (PStr "success") ->
    fetch_failure float_of_str (Responded (mkResponse code (Some data)))
| missing_data (code : Z) (d : list (string * pyval)) :
    lookup "data" d = None ->
    fetch_failure float_of_str (Responded (mkResponse code (Some (PDict d))))
| missing_result (code : Z) (d dd : list (string * pyval)) :
    lookup "data" d = Some (PDict dd) ->
    lookup "result" dd = None ->
    fetch_failure float_of_str (Responded (mkResponse code (Some (PDict d))))
| empty_result (code : Z) (data : pyval) :
    success_body (PList []) data ->
    fetch_failure float_of_str (Responded (mkResponse code (Some data)))
| no_value_no_values (code : Z) (data : pyval) (e : list (string * pyval))
    (rest : list pyval) :
    success_body (PList (PDict e :: rest)) data ->
    lookup "value" e = None ->
    lookup "values" e = None ->
    fetch_failure float_of_str (Responded (mkResponse code (Some data)))
| unparsable_value (code : Z) (data : pyval) (e : list (string * pyval))
    (rest : list pyval) (ts : pyval) (s : string) (more : list pyval) :
    success_body (PList (PDict e :: rest)) data ->
    lookup "value" e = Some (PList (ts :: PStr s :: more)) ->
    float_of_str s = None ->
    fetch_failure float_of_str (Responded (mkResponse code (Some data)))
| unparsable_values (code : Z) (data : pyval) (e : list (string * pyval))
    (rest : list pyval) (series : list pyval) (ts : pyval) (s : string)
    (more : list pyval) :
    success_body (PList (PDict e :: rest)) data ->
    lookup "value" e = None ->
    lookup "values" e
    = Some (PList (series ++ [PList (ts :: PStr s :: more)])) ->
    float_of_str s = None ->
    fetch_failure float_of_str (Responded (mkResponse code (Some data))).

(** The float [q] returns when the network answers [o]. *)
Definition fetched (env_PROM_URL : option string)
    (float_of_str : string -> option float) (query : string)
    (o : http_outcome) : float :=
  match fst (q env_PROM_URL float_of_str (fun _ _ => o) query []) with
  | Ok v => v
  | Raise _ => nan
  end.

(** The second element of a pair, through [float]; NaN when that raises. *)
Definition second_as_float (float_of_str : string -> option float)
    (pair : result pyval) : float :=
  match pair with
  | Ok p =>
      match getitem_int p 1 with
      | Ok x =>
          match py_float float_of_str x with
          | Ok f => f
          | Raise _ => nan
          end
      | Raise _ => nan
      end
  | Raise _ => nan
  end.

(** The last element of an entry's [values] list. *)
Definition last_of_values (e : list (string * pyval)) : result pyval :=
  match lookup "values" e with
  | Some vs => getitem_int vs (-1)
  | None => Raise KeyError
  end.

(** The extraction as the specification words it: the [value] field when
    the entry has one, the last element of [values] only when it is absent;
    then the second element of the chosen pair as a float. *)
Definition spec_extract (float_of_str : string -> option float)
    (e : list (string * pyval)) : float :=
  second_as_float float_of_str
    (match lookup "value" e with
     | Some v => Ok v
     | None => last_of_values e
     end).

Definition value_preferred_whenever_present : Prop :=
  forall env_PROM_URL float_of_str network query tr code data e rest,
    network tr (request_for env_PROM_URL query)
    = Responded (mkResponse code (Some data)) ->
    ~ http_error code ->
    success_body (PList (PDict e :: rest)) data ->
    q env_PROM_URL float_of_str network query tr
    = (Ok (spec_extract float_of_str e),
       (tr ++ [request_for env_PROM_URL query])%list).

(** The three requests of [insights_now], in the order it sends them. *)
Definition cpu_request (env_PROM_URL : option string) : Request :=
  request_for env_PROM_URL cpu_query.
Definition mem_request (env_PROM_URL : option string) : Request :=
  request_for env_PROM_URL mem_query.
Definition disk_request (env_PROM_URL : option string) : Request :=
  request_for env_PROM_URL disk_query.

(** The response built from three fetched values. *)
Definition response_of (c m d : float) : InsightResponse :=
  mkInsightResponse "ok" (generate c m d)
    [("cpu_pct", PFloat c); ("mem_pct", PFloat m); ("disk_pct", PFloat d)].

(** The outcome the network gives to the request for metric [k] during a
    run of [insights_now] started after the requests [tr]. *)
Definition outcome_of (env_PROM_URL : option string)
    (network : trace -> Request -> http_outcome) (tr : trace) (k : metric)
  : http_outcome :=
  match k with
  | CPU => network tr (cpu_request env_PROM_URL)
  | Memory =>
      network (tr ++ [cpu_request env_PROM_URL])%list
        (mem_request env_PROM_URL)
  | Disk =>
      network
        ((tr ++ [cpu_request env_PROM_URL])
         ++ [mem_request env_PROM_URL])%list
        (disk_request env_PROM_URL)
  end.

(** The query [insights_now] runs for a metric. *)
Definition query_of (k : metric) : string :=
  match k with
  | CPU => cpu_query
  | Memory => mem_query
  | Disk => disk_query
  end.

(** The key of [raw] that holds a metric. *)
Definition raw_key (k : metric) : string :=
  match k with
  | CPU => "cpu_pct"
  | Memory => "mem_pct"
  | Disk => "disk_pct"
  end.

Definition has_severity (s : string) (i : Insight) : bool :=
  String.eqb (severity i) s.

(** What every insight the rules build satisfies. *)
Definition well_formed (i : Insight) : Prop :=
  (severity i = "info" \/ severity i = "warning" \/ severity i = "critical")
  /\ (1 <= List.length (recommendations i) <= 2)%nat
  /\ title i <> EmptyString
  /\ description i <> EmptyString.

(** ** Sample inputs *)

(** A parser for the examples: plain decimal numerals, on which it agrees
    with Python's [float]. *)
Definition float_of_digits (s : string) : option float :=
  match s with
  | EmptyString => None
  | _ =>
      match NilEmpty.uint_of_string s with
      | Some u => Some (of_int (Z.of_N (N.of_uint u)))
      | None => None
      end
  end.

Definition body_with (result : pyval) : pyval :=
  PDict [("status", PStr "success");
         ("data", PDict [("resultType", PStr "vector"); ("result", result)])].

Definition instant (s : string) : pyval :=
  PDict [("metric", PDict []);
         ("value", PList [PFloat (of_int 1700000000); PStr s])].

Definition answers (o : http_outcome) : trace -> Request -> http_outcome :=
  fun _ _ => o.

Definition ok_with (result : pyval) : http_outcome :=
  Responded (mkResponse 200 (Some (body_with result))).

(** A network whose second answer times out; the others report 50. *)
Definition second_times_out : trace -> Request -> http_outcome :=
  fun tr _ =>
    if (List.length tr =? 1)%nat then Failed Timeout
    else ok_with (PList [instant "50"]).

(** A network that answers 90 until five requests were sent. *)
Definition flaky : trace -> Request -> http_outcome :=
  fun tr _ =>
    if (List.length tr <? 5)%nat then ok_with (PList [instant "90"])
    else Failed Timeout.

(** ** Examples *)

Example format_ninety : format_1f (of_int 90) = "90.0".
Proof. reflexivity. Qed.

(** 0.25 and 0.75 are exact in binary: ties go to the even digit. *)
Example format_ties :
  format_1f (S754_finite false 1 (-2)) = "0.2"
  /\ format_1f (S754_finite false 3 (-2)) = "0.8".
Proof. split; reflexivity. Qed.

Example format_specials :
  format_1f (S754_infinity false) = "inf"
  /\ format_1f nan = "nan"
  /\ format_1f (S754_zero true) = "-0.0".
Proof. repeat split. Qed.

Example generate_90_10_60 :
  generate (of_int 90) (of_int 10) (of_int 60)
  = [high_cpu (of_int 90); low_mem (of_int 10); cost_hint]
  /\ map title (generate (of_int 90) (of_int 10) (of_int 60))
     = ["High CPU usage (90.0%)"; "Low Memory usage (10.0%)";
        "Cost heuristic"].
Proof. split; reflexivity. Qed.

Example generate_all_nan :
  generate nan nan nan
  = [no_cpu_metrics; no_mem_metrics; no_disk_metrics; cost_hint].
Proof. reflexivity. Qed.

Example generate_boundaries :
  generate (of_int 85) (of_int 30) (of_int 80) = [cost_hint]
  /\ generate (of_int 20) (of_int 85) (of_int 50) = [cost_hint].
Proof. split; reflexivity. Qed.

Example q_instant_sample :
  q None float_of_digits (answers (ok_with (PList [instant "42"]))) "up" []
  = (Ok (of_int 42),
     [mkRequest "http://localhost:9090/api/v1/query" [("query", "up")] 8]).
Proof. reflexivity. Qed.

Example chars_of_utf8 :
  getitem_int (PStr "aéb") 1 = Ok (PStr "é")
  /\ getitem_int (PStr "aéb") (-1) = Ok (PStr "b").
Proof. split; reflexivity. Qed.

(** ** Floats: comparison facts *)

Lemma SFcompare_antisym (x y : float) :
  SFcompare y x = option_map CompOpp (SFcompare x y).
Proof.
  destruct x as [sx|sx| |sx mx ex], y as [sy|sy| |sy my ey]; simpl;
    try reflexivity;
    try (destruct sx; reflexivity); try (destruct sy; reflexivity);
    try (destruct sx, sy; reflexivity).
  destruct sx, sy; simpl; try reflexivity;
    rewrite (Z.compare_antisym ey ex);
    destruct (ey ?= ex) eqn:E; simpl; try reflexivity;
    f_equal; rewrite ?CompOpp_involutive;
    rewrite Pos.compare_cont_antisym; reflexivity.
Qed.

Lemma SFcompare_refl (x : float) :
  x <> nan -> SFcompare x x = Some Eq.
Proof.
  destruct x as [s|s| |s m e]; simpl; intros H;
    try reflexivity; try (destruct s; reflexivity);
    try (exfalso; apply H; reflexivity).
  destruct s; rewrite Z.compare_refl, Pos.compare_cont_refl; reflexivity.
Qed.

Lemma ne_self_nan (x : float) : ne x x = true <-> x = nan.
Proof.
  unfold ne, SFeqb. split.
  - intros H. destruct x as [s|s| |s m e]; try reflexivity;
      rewrite SFcompare_refl in H by discriminate; discriminate.
  - intros ->. reflexivity.
Qed.

Lemma ne_self_false (x : float) : x <> nan -> ne x x = false.
Proof.
  intros H. unfold ne, SFeqb. rewrite SFcompare_refl by assumption.
  reflexivity.
Qed.

Lemma SFltb_not_nan_r (x y : float) : SFltb x y = true -> y <> nan.
Proof.
  intros H ->. unfold SFltb in H.
  destruct x; simpl in H; discriminate.
Qed.

Lemma SFltb_not_nan_l (x y : float) : SFltb x y = true -> x <> nan.
Proof.
  intros H ->. unfold SFltb in H. simpl in H. discriminate.
Qed.

Lemma SFleb_not_nan_l (x y : float) : SFleb x y = true -> x <> nan.
Proof.
  intros H ->. unfold SFleb in H. simpl in H. discriminate.
Qed.

Lemma SFleb_SFltb_false (x y : float) : SFleb x y = true -> SFltb y x = false.
Proof.
  unfold SFleb, SFltb. rewrite (SFcompare_antisym x y).
  destruct (SFcompare x y) as [[ | | ]|]; simpl; congruence.
Qed.

Lemma SFltb_asym (x y : float) : SFltb x y = true -> SFltb y x = false.
Proof.
  unfold SFltb. rewrite (SFcompare_antisym x y).
  destruct (SFcompare x y) as [[ | | ]|]; simpl; congruence.
Qed.

Lemma gt_int_not_nan (x : float) (n : Z) : gt_int x n = true -> x <> nan.
Proof. apply SFltb_not_nan_r. Qed.

Lemma lt_int_not_nan (x : float) (n : Z) : lt_int x n = true -> x <> nan.
Proof. apply SFltb_not_nan_l. Qed.

Lemma le_int_not_nan (x : float) (n : Z) : le_int x n = true -> x <> nan.
Proof. apply SFleb_not_nan_l. Qed.

Lemma le_int_gt_int (x : float) (n : Z) :
  le_int x n = true -> gt_int x n = false.
Proof. apply SFleb_SFltb_false. Qed.

Lemma ge_int_lt_int (x : float) (n : Z) :
  ge_int x n = true -> lt_int x n = false.
Proof. apply SFleb_SFltb_false. Qed.

(** ** The rule blocks *)

Lemma cpu_rules_app (x : float) (l : list Insight) :
  cpu_rules x l = (l ++ block CPU x)%list.
Proof.
  unfold block, cpu_rules, append.
  destruct (ne x x), (gt_int x 85), (lt_int x 20);
    simpl; rewrite ?app_nil_r; reflexivity.
Qed.

Lemma mem_rules_app (x : float) (l : list Insight) :
  mem_rules x l = (l ++ block Memory x)%list.
Proof.
  unfold block, mem_rules, append.
  destruct (ne x x), (gt_int x 85), (lt_int x 30);
    simpl; rewrite ?app_nil_r; reflexivity.
Qed.

Lemma disk_rules_app (x : float) (l : list Insight) :
  disk_rules x l = (l ++ block Disk x)%list.
Proof.
  unfold block, disk_rules, append.
  destruct (ne x x), (gt_int x 80), (lt_int x 50);
    simpl; rewrite ?app_nil_r; reflexivity.
Qed.

Lemma generate_blocks (cpu mem disk : float) :
  generate cpu mem disk
  = (block CPU cpu ++ block Memory mem ++ block Disk disk ++ [cost_hint])%list.
Proof.
  unfold generate, append.
  rewrite disk_rules_app, mem_rules_app, cpu_rules_app.
  simpl. rewrite <- !app_assoc. reflexivity.
Qed.

Lemma block_cases (k : metric) (x : float) :
  block k x =
    if ne x x then [missing_insight k]
    else if gt_int x (high k) then [high_insight k x]
    else if lt_int x (low k) then [low_insight k x]
    else [].
Proof.
  destruct k; unfold block, cpu_rules, mem_rules, disk_rules, append; simpl;
    destruct (ne x x); try reflexivity;
    match goal with |- context [gt_int x ?n] => destruct (gt_int x n) end;
    try reflexivity;
    match goal with |- context [lt_int x ?n] => destruct (lt_int x n) end;
    reflexivity.
Qed.

Lemma block_length (k : metric) (x : float) :
  (List.length (block k x) <= 1)%nat.
Proof.
  rewrite block_cases.
  destruct (ne x x), (gt_int x (high k)), (lt_int x (low k)); simpl; lia.
Qed.

Lemma prefix_empty (s : string) : prefix EmptyString s = true.
Proof. destruct s; reflexivity. Qed.

Lemma specific_block (k k' : metric) (x : float) :
  filter (specific k) (block k' x)
  = match k, k' with
    | CPU, CPU | Memory, Memory | Disk, Disk => block k' x
    | _, _ => []
    end.
Proof.
  rewrite block_cases.
  destruct (ne x x), (gt_int x (high k')), (lt_int x (low k'));
    destruct k, k';
    cbv [specific is_missing is_high is_low missing_title high_prefix
         low_prefix missing_insight high_insight low_insight filter title
         no_cpu_metrics high_cpu low_cpu no_mem_metrics high_mem low_mem
         no_disk_metrics high_disk low_disk];
    simpl; rewrite ?prefix_empty; reflexivity.
Qed.

Lemma specific_cost_hint (k : metric) : specific k cost_hint = false.
Proof. destruct k; reflexivity. Qed.

Lemma specific_generate (k : metric) (cpu mem disk : float) :
  filter (specific k) (generate cpu mem disk) = block k (pick k cpu mem disk).
Proof.
  rewrite generate_blocks, !filter_app, !specific_block. simpl.
  rewrite specific_cost_hint.
  destruct k; simpl; rewrite ?app_nil_r; reflexivity.
Qed.

Lemma filter_sub {A : Type} (p r : A -> bool) (l : list A) :
  (forall a, p a = true -> r a = true) ->
  filter p (filter r l) = filter p l.
Proof.
  intros Hsub. induction l as [|a l IH]; simpl; [reflexivity|].
  destruct (r a) eqn:Hr; simpl.
  - rewrite IH. reflexivity.
  - destruct (p a) eqn:Hp; [|exact IH].
    apply Hsub in Hp. congruence.
Qed.

Lemma is_missing_specific (k : metric) (i : Insight) :
  is_missing k i = true -> specific k i = true.
Proof. unfold specific. intros ->. reflexivity. Qed.

Lemma is_high_specific (k : metric) (i : Insight) :
  is_high k i = true -> specific k i = true.
Proof. unfold specific. intros ->. rewrite orb_true_r. reflexivity. Qed.

Lemma is_low_specific (k : metric) (i : Insight) :
  is_low k i = true -> specific k i = true.
Proof. unfold specific. intros ->. apply orb_true_r. Qed.

(** ** The generator *)

(** C2: when cpu is strictly above 85 (so not NaN), the CPU insights of the
    generated list are exactly one insight, of critical severity, whose
    title embeds cpu formatted with one decimal; the list holds no low CPU
    insight and no missing-CPU-metrics warning. *)
Theorem cpu_above_85_one_critical (cpu mem disk : float) :
  gt_int cpu 85 = true ->
  filter (specific CPU) (generate cpu mem disk) = [high_cpu cpu]
  /\ severity (high_cpu cpu) = "critical"
  /\ title (high_cpu cpu) = "High CPU usage (" ++ format_1f cpu ++ "%)"
  /\ filter (is_low CPU) (generate cpu mem disk) = []
  /\ filter (is_missing CPU) (generate cpu mem disk) = [].
Proof.
  intros H.
  assert (Hs : filter (specific CPU) (generate cpu mem disk) = [high_cpu cpu]).
  { rewrite specific_generate, block_cases. simpl.
    rewrite (ne_self_false cpu (gt_int_not_nan _ _ H)), H. reflexivity. }
  repeat split; try assumption.
  - rewrite <- (filter_sub (is_low CPU) (specific CPU))
      by apply is_low_specific.
    rewrite Hs. reflexivity.
  - rewrite <- (filter_sub (is_missing CPU) (specific CPU))
      by apply is_missing_specific.
    rewrite Hs. reflexivity.
Qed.

Lemma cpu_above_85_one_critical_witness :
  gt_int (of_int 90) 85 = true
  /\ filter (specific CPU) (generate (of_int 90) (of_int 10) (of_int 60))
     = [high_cpu (of_int 90)]
  /\ title (high_cpu (of_int 90)) = "High CPU usage (90.0%)".
Proof.
  split; [reflexivity|].
  split.
  - apply (cpu_above_85_one_critical (of_int 90) (of_int 10) (of_int 60)).
    reflexivity.
  - reflexivity.
Defined.

(** C3: the thresholds are strict.  A metric whose value lies in the closed
    band between its low and its high threshold (cpu in [20, 85], mem in
    [30, 85], disk in [50, 80]) contributes no insight of its own; the
    boundary values are part of the band. *)
Theorem in_band_no_insight (k : metric) (cpu mem disk : float) :
  ge_int (pick k cpu mem disk) (low k) = true ->
  le_int (pick k cpu mem disk) (high k) = true ->
  filter (specific k) (generate cpu mem disk) = [].
Proof.
  intros Hlo Hhi.
  rewrite specific_generate, block_cases.
  rewrite (ne_self_false _ (le_int_not_nan _ _ Hhi)).
  rewrite (le_int_gt_int _ _ Hhi), (ge_int_lt_int _ _ Hlo).
  reflexivity.
Qed.

Lemma in_band_no_insight_witness :
  filter (specific CPU) (generate (of_int 20) nan nan) = []
  /\ filter (specific CPU) (generate (of_int 85) nan nan) = []
  /\ filter (specific Memory) (generate nan (of_int 30) nan) = []
  /\ filter (specific Memory) (generate nan (of_int 85) nan) = []
  /\ filter (specific Disk) (generate nan nan (of_int 50)) = []
  /\ filter (specific Disk) (generate nan nan (of_int 80)) = [].
Proof.
  refine (conj _ (conj _ (conj _ (conj _ (conj _ _))))).
  - apply (in_band_no_insight CPU (of_int 20) nan nan); reflexivity.
  - apply (in_band_no_insight CPU (of_int 85) nan nan); reflexivity.
  - apply (in_band_no_insight Memory nan (of_int 30) nan); reflexivity.
  - apply (in_band_no_insight Memory nan (of_int 85) nan); reflexivity.
  - apply (in_band_no_insight Disk nan nan (of_int 50)); reflexivity.
  - apply (in_band_no_insight Disk nan nan (of_int 80)); reflexivity.
Defined.

(** C4: when cpu is NaN, whatever mem and disk are, the CPU insights of the
    generated list are exactly the one warning that no CPU metrics came
    back, and no threshold insight for CPU is present.  The test the code
    uses, [cpu != cpu], holds for NaN and for no other float. *)
Theorem cpu_nan_one_warning (cpu mem disk : float) :
  cpu = nan ->
  ne cpu cpu = true
  /\ filter (specific CPU) (generate cpu mem disk) = [no_cpu_metrics]
  /\ severity no_cpu_metrics = "warning"
  /\ title no_cpu_metrics = "No CPU metrics"
  /\ filter (is_high CPU) (generate cpu mem disk) = []
  /\ filter (is_low CPU) (generate cpu mem disk) = []
  /\ (forall x : float, ne x x = true <-> x = nan).
Proof.
  intros ->.
  assert (Hs : filter (specific CPU) (generate nan mem disk)
               = [no_cpu_metrics]).
  { rewrite specific_generate, block_cases. reflexivity. }
  repeat split; try assumption; try (apply ne_self_nan; assumption).
  - rewrite <- (filter_sub (is_high CPU) (specific CPU))
      by apply is_high_specific.
    rewrite Hs. reflexivity.
  - rewrite <- (filter_sub (is_low CPU) (specific CPU))
      by apply is_low_specific.
    rewrite Hs. reflexivity.
Qed.

Lemma cpu_nan_one_warning_witness :
  filter (specific CPU) (generate nan (of_int 90) (of_int 10))
  = [no_cpu_metrics].
Proof.
  apply (cpu_nan_one_warning nan (of_int 90) (of_int 10)).
  reflexivity.
Defined.

(** C6: the generated list is the CPU insights, then the memory insights,
    then the disk insights, then the cost hint, and each metric has at most
    one insight of its own. *)
Theorem metric_order_at_most_one (cpu mem disk : float) :
  let out := generate cpu mem disk in
  out = (filter (specific CPU) out ++ filter (specific Memory) out
         ++ filter (specific Disk) out ++ [cost_hint])%list
  /\ (forall k, (List.length (filter (specific k) out) <= 1)%nat)
  /\ (forall k, specific k cost_hint = false).
Proof.
  cbv zeta. split; [|split].
  - rewrite !specific_generate. apply generate_blocks.
  - intros k. rewrite specific_generate. apply block_length.
  - apply specific_cost_hint.
Qed.

(** For the generator: between one and four insights, the last of which is
    the cost hint. *)
Lemma generate_length_last (cpu mem disk : float) (d : Insight) :
  (1 <= List.length (generate cpu mem disk) <= 4)%nat
  /\ last (generate cpu mem disk) d = cost_hint.
Proof.
  rewrite generate_blocks. split.
  - rewrite !length_app. change (List.length [cost_hint]) with 1%nat.
    pose proof (block_length CPU cpu). pose proof (block_length Memory mem).
    pose proof (block_length Disk disk). lia.
  - rewrite !app_assoc. apply last_last.
Qed.

(** ** Indexing and small tests *)

Lemma seq_index_0 {A : Type} (a : A) (l : list A) :
  seq_index (a :: l) 0 = Ok a.
Proof.
  unfold seq_index. cbn [List.length Z.ltb Z.compare].
  replace (Z.of_nat (S (List.length l)) <=? 0) with false
    by (symmetry; apply Z.leb_gt; lia).
  reflexivity.
Qed.

Lemma seq_index_1 {A : Type} (a b : A) (l : list A) :
  seq_index (a :: b :: l) 1 = Ok b.
Proof.
  unfold seq_index. cbn [List.length Z.ltb Z.compare].
  replace (Z.of_nat (S (S (List.length l))) <=? 1) with false
    by (symmetry; apply Z.leb_gt; lia).
  reflexivity.
Qed.

Lemma seq_index_last {A : Type} (l : list A) (a : A) :
  seq_index (l ++ [a])%list (-1) = Ok a.
Proof.
  unfold seq_index. rewrite length_app. cbn [List.length Z.ltb Z.compare].
  replace (-1 + Z.of_nat (List.length l + 1)) with (Z.of_nat (List.length l))
    by lia.
  replace (Z.of_nat (List.length l) <? 0) with false
    by (symmetry; apply Z.ltb_ge; lia).
  replace (Z.of_nat (List.length l + 1) <=? Z.of_nat (List.length l))
    with false by (symmetry; apply Z.leb_gt; lia).
  rewrite Nat2Z.id, nth_error_app2, Nat.sub_diag by lia.
  reflexivity.
Qed.

Arguments seq_index : simpl never.

Lemma http_error_test (code : Z) :
  http_error code -> (400 <=? code) && (code <? 600) = true.
Proof.
  unfold http_error. intros H. apply andb_true_intro.
  split; [apply Z.leb_le|apply Z.ltb_lt]; lia.
Qed.

Lemma http_ok_test (code : Z) :
  ~ http_error code -> (400 <=? code) && (code <? 600) = false.
Proof.
  unfold http_error. intros H.
  destruct (400 <=? code) eqn:E1; [|reflexivity].
  destruct (code <? 600) eqn:E2; [|reflexivity].
  apply Z.leb_le in E1. apply Z.ltb_lt in E2. lia.
Qed.

Lemma ne_str_false (v : pyval) (s : string) :
  ne_str v s = false -> v = PStr s.
Proof.
  destruct v; simpl; try discriminate.
  intros H. apply negb_false_iff, String.eqb_eq in H. congruence.
Qed.

(** ** The fetcher *)

Section FetcherFacts.

Variable env_PROM_URL : option string.
Variable float_of_str : string -> option float.
Variable network : trace -> Request -> http_outcome.

(** One step of running a computation: split on an innermost scrutinee. *)
Ltac run_step :=
  match goal with
  | |- context [match ?x with _ => _ end] =>
      lazymatch x with
      | context [match _ with _ => _ end] => fail
      | _ => destruct x eqn:?
      end
  end.

Ltac run_unfold :=
  unfold q, try_except, bind, requests_get, raise_for_status, json, lift,
    ret, raise.

Ltac use_lookups :=
  match goal with
  | H : lookup _ _ = _ |- _ => rewrite H
  | H : _ = @None float |- _ => rewrite H
  | H : truthy _ = _ |- _ => rewrite H
  end.

Ltac settle :=
  repeat first [ progress simpl
               | rewrite seq_index_0 | rewrite seq_index_1
               | rewrite seq_index_last
               | use_lookups ].

Ltac crunch :=
  repeat (settle; try reflexivity; try congruence; try run_step).

Lemma q_total (query : string) (tr : trace) :
  exists v,
    q env_PROM_URL float_of_str network query tr
    = (Ok v, (tr ++ [request_for env_PROM_URL query])%list).
Proof.
  unfold request_for. run_unfold.
  repeat (run_step; try (eexists; reflexivity)).
Qed.

Lemma q_run (query : string) (tr : trace) :
  q env_PROM_URL float_of_str network query tr
  = (Ok (fetched env_PROM_URL float_of_str query
           (network tr (request_for env_PROM_URL query))),
     (tr ++ [request_for env_PROM_URL query])%list).
Proof.
  unfold fetched, request_for. run_unfold.
  destruct (network tr _) as [e|r]; [reflexivity|]. simpl.
  repeat (run_step; try reflexivity).
Qed.

Lemma fetched_failure (query : string) (o : http_outcome) :
  fetch_failure float_of_str o ->
  fetched env_PROM_URL float_of_str query o = nan.
Proof.
  intros H. unfold fetched. run_unfold.
  destruct H as [e|code b Hc|code|code data Hs|code d Hd|code d dd Hd Hr
                |code data Hb|code data e rest Hb Hv Hvs
                |code data e rest ts s more Hb Hv Hs
                |code data e rest series ts s more Hb Hv Hvs Hs];
    try (destruct Hb as (d & dd & -> & Hstatus & Hdata & Hresult));
    simpl.
  - reflexivity.
  - rewrite (http_error_test _ Hc). reflexivity.
  - crunch.
  - destruct ((400 <=? code) && (code <? 600)); [reflexivity|]. simpl.
    destruct (py_get data "status" PNone) as [st|] eqn:E; [|reflexivity].
    destruct (ne_str st "success") eqn:N; [reflexivity|].
    apply ne_str_false in N. congruence.
  - crunch.
  - crunch.
  - crunch.
  - crunch.
  - crunch.
  - crunch.
Qed.

(** C1: [q] always returns a float and raises nothing, having sent one
    request; and on every failing outcome (a failed or timed-out request, an
    HTTP error status, a body that is not JSON, a top-level status other
    than "success", missing fields, an empty result list, a first entry
    with neither [value] nor [values], a numeric string that does not
    parse) the float it returns is NaN. *)
Theorem q_nan_never_raises (query : string) (tr : trace) :
  (exists v, q env_PROM_URL float_of_str network query tr
             = (Ok v, (tr ++ [request_for env_PROM_URL query])%list))
  /\ (fetch_failure float_of_str
        (network tr (request_for env_PROM_URL query)) ->
      q env_PROM_URL float_of_str network query tr
      = (Ok nan, (tr ++ [request_for env_PROM_URL query])%list)).
Proof.
  split; [apply q_total|].
  intros H. rewrite q_run, (fetched_failure query _ H). reflexivity.
Qed.

(** C8, as the code has it: for a first entry that is an object, [q] takes
    the [value] field when it is present and truthy, and the last element
    of [values] when [value] is absent or falsy (null, an empty list or
    string, zero, false); it returns the second element of the chosen pair
    converted by [float], and NaN when any of these steps raises. *)
Theorem value_preferred_when_truthy (query : string) (tr : trace) (code : Z)
    (data : pyval) (e : list (string * pyval)) (rest : list pyval) :
  network tr (request_for env_PROM_URL query)
  = Responded (mkResponse code (Some data)) ->
  ~ http_error code ->
  success_body (PList (PDict e :: rest)) data ->
  (forall v, lookup "value" e = Some v -> truthy v = true ->
     q env_PROM_URL float_of_str network query tr
     = (Ok (second_as_float float_of_str (Ok v)),
        (tr ++ [request_for env_PROM_URL query])%list))
  /\ (lookup "value" e = None
      \/ (exists v, lookup "value" e = Some v /\ truthy v = false) ->
      q env_PROM_URL float_of_str network query tr
      = (Ok (second_as_float float_of_str (last_of_values e)),
         (tr ++ [request_for env_PROM_URL query])%list)).
Proof.
  intros Hnet Hcode (d & dd & -> & Hstatus & Hdata & Hresult).
  rewrite q_run, Hnet.
  unfold fetched, second_as_float, last_of_values. run_unfold. simpl.
  rewrite (http_ok_test _ Hcode). simpl.
  split.
  - intros v Hv Ht. crunch.
  - intros [Hv|(v & Hv & Ht)]; crunch.
Qed.

End FetcherFacts.

(** Witness of C1: one concrete outcome for each way of failing. *)
Lemma q_nan_never_raises_witness :
  let run o := q None float_of_digits (answers o) "up" [] in
  let nan_after_one_call := (Ok nan, [request_for None "up"]) in
  run (Responded (mkResponse 503 None)) = nan_after_one_call
  /\ run (Failed Timeout) = nan_after_one_call
  /\ run (Responded (mkResponse 200 (Some (PDict [("status", PStr "error")]))))
     = nan_after_one_call
  /\ run (ok_with (PList [])) = nan_after_one_call
  /\ run (ok_with (PList [PDict [("metric", PDict [])]])) = nan_after_one_call
  /\ run (ok_with (PList [instant "abc"])) = nan_after_one_call.
Proof.
  cbv zeta.
  refine (conj _ (conj _ (conj _ (conj _ (conj _ _)))));
    apply (proj2 (q_nan_never_raises None float_of_digits (answers _) "up" []));
    unfold answers.
  - apply error_status. unfold http_error. lia.
  - apply failed_request.
  - apply status_not_success. simpl. discriminate.
  - apply empty_result. do 2 eexists. repeat split; reflexivity.
  - eapply no_value_no_values;
      [do 2 eexists; repeat split; reflexivity|reflexivity|reflexivity].
  - eapply unparsable_value;
      [do 2 eexists; repeat split; reflexivity|reflexivity|reflexivity].
Defined.

(** Witness of C8: an instant vector sample, and a range sample. *)
Lemma value_preferred_when_truthy_witness :
  q None float_of_digits (answers (ok_with (PList [instant "42"]))) "up" []
  = (Ok (of_int 42), [request_for None "up"])
  /\ q None float_of_digits
       (answers (ok_with (PList [PDict
          [("values", PList [PList [PInt 1; PStr "7"];
                             PList [PInt 2; PStr "9"]])]]))) "up" []
     = (Ok (of_int 9), [request_for None "up"]).
Proof.
  split.
  - apply (proj1 (value_preferred_when_truthy None float_of_digits
                    (answers (ok_with (PList [instant "42"]))) "up" [] 200
                    (body_with (PList [instant "42"])) _ [] eq_refl
                    ltac:(unfold http_error; lia)
                    ltac:(do 2 eexists; repeat split; reflexivity))
                 (PList [PFloat (of_int 1700000000); PStr "42"]));
      reflexivity.
  - apply (proj2 (value_preferred_when_truthy None float_of_digits
                    (answers (ok_with (PList [PDict
                       [("values", PList [PList [PInt 1; PStr "7"];
                                          PList [PInt 2; PStr "9"]])]])))
                    "up" [] 200 _ _ [] eq_refl
                    ltac:(unfold http_error; lia)
                    ltac:(do 2 eexists; repeat split; reflexivity))).
    left. reflexivity.
Defined.

(** Counterexample to C8 as stated: a first entry whose [value] is present
    but empty; the code reads the sample from [values]. *)
Lemma value_present_but_falsy_falls_back :
  ~ value_preferred_whenever_present.
Proof.
  intros H.
  specialize (H None float_of_digits
                (answers (ok_with (PList [PDict
                   [("value", PList []);
                    ("values", PList [PList [PInt 1; PStr "5"]])]])))
                "up" [] 200 _ _ [] eq_refl
                ltac:(unfold http_error; lia)
                ltac:(do 2 eexists; repeat split; reflexivity)).
  vm_compute in H. discriminate H.
Qed.

(** ** The handlers *)

(** C7, as the code has it: [healthz] sends nothing and returns a fixed
    object whose key [ok] is true and whose key [prom] holds the configured
    Prometheus URL; the object has no key [backend_url]. *)
Theorem healthz_static_payload (env_PROM_URL : option string) (tr : trace) :
  exists d,
    healthz env_PROM_URL tr = (Ok (PDict d), tr)
    /\ lookup "ok" d = Some (PBool true)
    /\ lookup "prom" d = Some (PStr (PROM_URL env_PROM_URL))
    /\ map fst d = ["ok"; "prom"]
    /\ lookup "backend_url" d = None.
Proof.
  eexists. split; [reflexivity|]. repeat split.
Qed.

(** Counterexample to C7 as stated: with the default configuration the
    payload binds no key [backend_url]. *)
Lemma healthz_has_no_backend_url :
  ~ (exists d,
       healthz None [] = (Ok (PDict d), [])
       /\ lookup "ok" d = Some (PBool true)
       /\ lookup "backend_url" d = Some (PStr (PROM_URL None))).
Proof.
  intros (d & Hrun & _ & Hkey).
  injection Hrun as <-. discriminate Hkey.
Qed.

Section HandlerFacts.

Variable env_PROM_URL : option string.
Variable float_of_str : string -> option float.

Lemma insights_now_run (network : trace -> Request -> http_outcome)
    (tr : trace) :
  insights_now env_PROM_URL float_of_str network tr
  = (Ok (response_of
           (fetched env_PROM_URL float_of_str cpu_query
              (network tr (cpu_request env_PROM_URL)))
           (fetched env_PROM_URL float_of_str mem_query
              (network (tr ++ [cpu_request env_PROM_URL])%list
                 (mem_request env_PROM_URL)))
           (fetched env_PROM_URL float_of_str disk_query
              (network
                 ((tr ++ [cpu_request env_PROM_URL])
                  ++ [mem_request env_PROM_URL])%list
                 (disk_request env_PROM_URL)))),
     (((tr ++ [cpu_request env_PROM_URL]) ++ [mem_request env_PROM_URL])
      ++ [disk_request env_PROM_URL])%list).
Proof.
  unfold insights_now, bind.
  rewrite !q_run. reflexivity.
Qed.

(** C5: whatever the three values are, the generated list is what the three
    metric blocks appended followed by the cost hint, so the hint is in the
    list; every response of [insights_now] holds it; and the hint is a
    constant: info severity and two fixed recommendations. *)
Theorem cost_hint_always_appended :
  (forall cpu mem disk : float,
     generate cpu mem disk
     = (disk_rules disk (mem_rules mem (cpu_rules cpu [])) ++ [cost_hint])%list
     /\ In cost_hint (generate cpu mem disk))
  /\ (forall network tr, exists resp tr',
        insights_now env_PROM_URL float_of_str network tr = (Ok resp, tr')
        /\ In cost_hint (insights resp))
  /\ title cost_hint = "Cost heuristic"
  /\ severity cost_hint = "info"
  /\ recommendations cost_hint
     = ["If CPU<20% and Mem<30% for 24h: consider t3.small (~50% cheaper).";
        "If CPU>85% or Mem>85% often: consider t3.large or add a node."].
Proof.
  assert (Hin : forall cpu mem disk, In cost_hint (generate cpu mem disk)).
  { intros. unfold generate, append. apply in_or_app. right. left.
    reflexivity. }
  split; [|split; [|repeat split]].
  - intros. split; [reflexivity|apply Hin].
  - intros. rewrite insights_now_run. do 2 eexists.
    split; [reflexivity|apply Hin].
Qed.

(** C10: the generated list has between one and four insights and ends with
    the cost hint, and so does the insight list of every response. *)
Theorem insights_length_and_last :
  (forall (cpu mem disk : float) (dflt : Insight),
     (1 <= List.length (generate cpu mem disk) <= 4)%nat
     /\ last (generate cpu mem disk) dflt = cost_hint)
  /\ (forall network tr, exists resp tr',
        insights_now env_PROM_URL float_of_str network tr = (Ok resp, tr')
        /\ (1 <= List.length (insights resp) <= 4)%nat
        /\ forall dflt, last (insights resp) dflt = cost_hint).
Proof.
  split.
  - intros. apply generate_length_last.
  - intros. rewrite insights_now_run. do 2 eexists.
    split; [reflexivity|]. simpl. split.
    + apply (generate_length_last _ _ _ cost_hint).
    + intros. apply generate_length_last.
Qed.

(** C9: two evaluations of [insights_now], possibly against different
    networks and after different histories, that receive the same outcome
    for each of the three requests return the same response: the same
    insights with the same fields in the same order. *)
Theorem same_outcomes_same_insights
    (net1 net2 : trace -> Request -> http_outcome) (tr1 tr2 : trace) :
  net1 tr1 (cpu_request env_PROM_URL) = net2 tr2 (cpu_request env_PROM_URL) ->
  net1 (tr1 ++ [cpu_request env_PROM_URL])%list (mem_request env_PROM_URL)
  = net2 (tr2 ++ [cpu_request env_PROM_URL])%list (mem_request env_PROM_URL) ->
  net1 ((tr1 ++ [cpu_request env_PROM_URL])
        ++ [mem_request env_PROM_URL])%list (disk_request env_PROM_URL)
  = net2 ((tr2 ++ [cpu_request env_PROM_URL])
          ++ [mem_request env_PROM_URL])%list (disk_request env_PROM_URL) ->
  exists resp,
    fst (insights_now env_PROM_URL float_of_str net1 tr1) = Ok resp
    /\ fst (insights_now env_PROM_URL float_of_str net2 tr2) = Ok resp.
Proof.
  intros H1 H2 H3. rewrite !insights_now_run, H1, H2, H3.
  eexists. split; reflexivity.
Qed.

(** The insight list is a function of the fetched triple kept in [raw]. *)
Lemma same_raw_same_insights
    (net1 net2 : trace -> Request -> http_outcome) (tr1 tr2 : trace)
    (resp1 resp2 : InsightResponse) :
  fst (insights_now env_PROM_URL float_of_str net1 tr1) = Ok resp1 ->
  fst (insights_now env_PROM_URL float_of_str net2 tr2) = Ok resp2 ->
  raw resp1 = raw resp2 ->
  insights resp1 = insights resp2.
Proof.
  rewrite !insights_now_run. simpl.
  intros [= <-] [= <-]. simpl. intros [= -> -> ->]. reflexivity.
Qed.

End HandlerFacts.

Lemma same_outcomes_same_insights_witness :
  exists resp,
    fst (insights_now None float_of_digits
           (answers (ok_with (PList [instant "90"]))) []) = Ok resp
    /\ fst (insights_now None float_of_digits flaky
              [request_for None "up"]) = Ok resp.
Proof.
  apply (same_outcomes_same_insights None float_of_digits
           (answers (ok_with (PList [instant "90"]))) flaky
           [] [request_for None "up"]);
    reflexivity.
Defined.

(** ** More on the generator *)

Ltac eval_thresholds :=
  repeat match goal with
         | |- context [of_int ?n] =>
             let v := eval vm_compute in (of_int n) in
             change (of_int n) with v
         | H : context [of_int ?n] |- _ =>
             let v := eval vm_compute in (of_int n) in
             change (of_int n) with v in H
         end.

Lemma threshold_not_nan (k : metric) :
  of_int (high k) <> nan /\ of_int (low k) <> nan.
Proof. destruct k; split; discriminate. Qed.

Lemma SFcompare_total (x y : float) :
  x <> nan -> y <> nan -> exists c, SFcompare x y = Some c.
Proof.
  intros Hx Hy.
  destruct x as [sx|sx| |sx mx ex]; try (exfalso; apply Hx; reflexivity);
    destruct y as [sy|sy| |sy my ey]; try (exfalso; apply Hy; reflexivity);
    simpl; eexists; reflexivity.
Qed.

Lemma not_gt_le (x : float) (n : Z) :
  x <> nan -> of_int n <> nan -> gt_int x n = false -> le_int x n = true.
Proof.
  unfold gt_int, le_int, SFltb, SFleb. intros Hx Hn.
  rewrite (SFcompare_antisym (of_int n) x).
  destruct (SFcompare_total (of_int n) x Hn Hx) as [c ->].
  destruct c; simpl; congruence.
Qed.

Lemma not_lt_ge (x : float) (n : Z) :
  x <> nan -> of_int n <> nan -> lt_int x n = false -> ge_int x n = true.
Proof.
  unfold lt_int, ge_int, SFltb, SFleb. intros Hx Hn.
  rewrite (SFcompare_antisym x (of_int n)).
  destruct (SFcompare_total x (of_int n) Hx Hn) as [c ->].
  destruct c; simpl; congruence.
Qed.

Lemma nan_not_gt (x : float) (n : Z) : ne x x = true -> gt_int x n = false.
Proof.
  intros H. apply ne_self_nan in H. subst x.
  unfold gt_int, SFltb. destruct (of_int n); reflexivity.
Qed.

(** Below the low threshold is never above the high one. *)
Lemma below_low_not_above_high (k : metric) (x : float) :
  lt_int x (low k) = true -> gt_int x (high k) = false.
Proof.
  destruct k; unfold lt_int, gt_int, low, high; intros H; eval_thresholds;
    destruct x as [s|s| |s m e]; try reflexivity; try discriminate H;
    try (destruct s; try reflexivity; discriminate H);
    unfold SFltb, SFcompare in *; destruct s; try reflexivity;
    match type of H with
    | context [e ?= ?a] => destruct (Z.compare_spec e a)
    end; try discriminate H;
    match goal with
    | |- context [?b ?= e] => destruct (Z.compare_spec b e)
    end; try reflexivity; lia.
Qed.

Lemma block_nil_iff (k : metric) (x : float) :
  block k x = []
  <-> ge_int x (low k) = true /\ le_int x (high k) = true.
Proof.
  rewrite block_cases. split.
  - destruct (ne x x) eqn:Hne; [discriminate|].
    destruct (gt_int x (high k)) eqn:Hgt; [discriminate|].
    destruct (lt_int x (low k)) eqn:Hlt; [discriminate|].
    intros _.
    assert (Hx : x <> nan).
    { intros ->. discriminate Hne. }
    destruct (threshold_not_nan k) as [Hh Hl].
    split; [apply not_lt_ge|apply not_gt_le]; assumption.
  - intros [Hlo Hhi].
    rewrite (ne_self_false _ (le_int_not_nan _ _ Hhi)).
    rewrite (le_int_gt_int _ _ Hhi), (ge_int_lt_int _ _ Hlo).
    reflexivity.
Qed.

(** X1: a metric strictly above its high threshold (85 for CPU and memory,
    80 for disk) contributes exactly one insight, critical, whose title is
    the metric's high-usage wording around the value with one decimal. *)
Theorem above_high_one_critical (k : metric) (cpu mem disk : float) :
  gt_int (pick k cpu mem disk) (high k) = true ->
  filter (specific k) (generate cpu mem disk)
  = [high_insight k (pick k cpu mem disk)]
  /\ severity (high_insight k (pick k cpu mem disk)) = "critical"
  /\ title (high_insight k (pick k cpu mem disk))
     = high_prefix k ++ format_1f (pick k cpu mem disk) ++ "%)".
Proof.
  intros H. rewrite specific_generate, block_cases.
  rewrite (ne_self_false _ (gt_int_not_nan _ _ H)), H.
  destruct k; repeat split.
Qed.

Lemma above_high_one_critical_witness :
  filter (specific Memory) (generate nan (of_int 86) nan)
  = [high_mem (of_int 86)]
  /\ filter (specific Disk) (generate nan nan (S754_infinity false))
     = [high_disk (S754_infinity false)].
Proof.
  split.
  - apply (above_high_one_critical Memory nan (of_int 86) nan). reflexivity.
  - apply (above_high_one_critical Disk nan nan (S754_infinity false)).
    reflexivity.
Defined.

(** X2: a metric strictly below its low threshold (20 for CPU, 30 for
    memory, 50 for disk) contributes exactly one insight, of info severity,
    whose title is the metric's low-usage wording around the value with one
    decimal; negative values are not rejected. *)
Theorem below_low_one_info (k : metric) (cpu mem disk : float) :
  lt_int (pick k cpu mem disk) (low k) = true ->
  filter (specific k) (generate cpu mem disk)
  = [low_insight k (pick k cpu mem disk)]
  /\ severity (low_insight k (pick k cpu mem disk)) = "info"
  /\ title (low_insight k (pick k cpu mem disk))
     = low_prefix k ++ format_1f (pick k cpu mem disk) ++ "%)".
Proof.
  intros H. rewrite specific_generate, block_cases.
  rewrite (ne_self_false _ (lt_int_not_nan _ _ H)).
  rewrite (below_low_not_above_high _ _ H), H.
  destruct k; repeat split.
Qed.

Lemma below_low_one_info_witness :
  filter (specific CPU) (generate (of_int 19) nan nan) = [low_cpu (of_int 19)]
  /\ filter (specific Memory) (generate nan (of_int (-5)) nan)
     = [low_mem (of_int (-5))]
  /\ title (low_mem (of_int (-5))) = "Low Memory usage (-5.0%)"
  /\ filter (specific Disk) (generate nan nan (of_int 49))
     = [low_disk (of_int 49)].
Proof.
  refine (conj _ (conj _ (conj _ _))).
  - apply (below_low_one_info CPU (of_int 19) nan nan). reflexivity.
  - apply (below_low_one_info Memory nan (of_int (-5)) nan). reflexivity.
  - reflexivity.
  - apply (below_low_one_info Disk nan nan (of_int 49)). reflexivity.
Defined.

(** X3: a metric whose value is NaN contributes exactly one insight, the
    warning that no metrics came back for it, whatever the other two are. *)
Theorem nan_one_warning (k : metric) (cpu mem disk : float) :
  pick k cpu mem disk = nan ->
  filter (specific k) (generate cpu mem disk) = [missing_insight k]
  /\ severity (missing_insight k) = "warning"
  /\ title (missing_insight k) = missing_title k.
Proof.
  intros H. rewrite specific_generate, block_cases, H.
  destruct k; repeat split.
Qed.

Lemma nan_one_warning_witness :
  filter (specific Memory) (generate (of_int 50) nan (of_int 60))
  = [no_mem_metrics]
  /\ filter (specific Disk) (generate (of_int 50) (of_int 50) nan)
     = [no_disk_metrics].
Proof.
  split.
  - apply (nan_one_warning Memory (of_int 50) nan (of_int 60)). reflexivity.
  - apply (nan_one_warning Disk (of_int 50) (of_int 50) nan). reflexivity.
Defined.

(** X4: the insights of one metric depend on that metric's value only. *)
Theorem metrics_independent (k : metric)
    (cpu mem disk cpu' mem' disk' : float) :
  pick k cpu mem disk = pick k cpu' mem' disk' ->
  filter (specific k) (generate cpu mem disk)
  = filter (specific k) (generate cpu' mem' disk').
Proof. intros H. rewrite !specific_generate, H. reflexivity. Qed.

Lemma metrics_independent_witness :
  filter (specific CPU) (generate (of_int 90) nan (of_int 10))
  = filter (specific CPU) (generate (of_int 90) (of_int 50) (of_int 99)).
Proof.
  apply (metrics_independent CPU (of_int 90) nan (of_int 10)
           (of_int 90) (of_int 50) (of_int 99)).
  reflexivity.
Defined.

(** X5: the list is the cost hint alone exactly when every metric lies in
    its closed band between the low and the high threshold. *)
Theorem only_cost_hint_iff_in_band (cpu mem disk : float) :
  generate cpu mem disk = [cost_hint]
  <-> forall k, ge_int (pick k cpu mem disk) (low k) = true
                /\ le_int (pick k cpu mem disk) (high k) = true.
Proof.
  rewrite generate_blocks. split.
  - intros H k.
    change [cost_hint] with ([] ++ [cost_hint])%list in H at 2.
    rewrite !app_assoc in H. apply app_inv_tail in H.
    apply app_eq_nil in H. destruct H as [H Hd].
    apply app_eq_nil in H. destruct H as [Hc Hm].
    apply block_nil_iff. destruct k; assumption.
  - intros H.
    rewrite (proj2 (block_nil_iff CPU cpu) (H CPU)).
    rewrite (proj2 (block_nil_iff Memory mem) (H Memory)).
    rewrite (proj2 (block_nil_iff Disk disk) (H Disk)).
    reflexivity.
Qed.

Lemma existsb_block_critical (k : metric) (x : float) :
  existsb (has_severity "critical") (block k x) = gt_int x (high k).
Proof.
  rewrite block_cases. destruct (ne x x) eqn:Hne.
  - rewrite (nan_not_gt _ _ Hne). destruct k; reflexivity.
  - destruct (gt_int x (high k)); [destruct k; reflexivity|].
    destruct (lt_int x (low k)); destruct k; reflexivity.
Qed.

Lemma existsb_block_warning (k : metric) (x : float) :
  existsb (has_severity "warning") (block k x) = ne x x.
Proof.
  rewrite block_cases. destruct (ne x x); [destruct k; reflexivity|].
  destruct (gt_int x (high k)); [destruct k; reflexivity|].
  destruct (lt_int x (low k)); destruct k; reflexivity.
Qed.

(** X6: the list holds a critical insight exactly when some metric is
    strictly above its high threshold. *)
Theorem critical_iff_above_high (cpu mem disk : float) :
  existsb (has_severity "critical") (generate cpu mem disk)
  = gt_int cpu 85 || gt_int mem 85 || gt_int disk 80.
Proof.
  rewrite generate_blocks, !existsb_app, !existsb_block_critical.
  simpl. rewrite !orb_false_r, orb_assoc. reflexivity.
Qed.

(** X7: the list holds a warning exactly when some metric is NaN. *)
Theorem warning_iff_nan (cpu mem disk : float) :
  existsb (has_severity "warning") (generate cpu mem disk) = true
  <-> cpu = nan \/ mem = nan \/ disk = nan.
Proof.
  rewrite generate_blocks, !existsb_app, !existsb_block_warning.
  simpl. rewrite !orb_false_r, !orb_true_iff, !ne_self_nan. tauto.
Qed.

(** X8: every insight of the list has one of the three severities, one or
    two recommendations, and a title and a description that are not
    empty. *)
Theorem insights_well_formed (cpu mem disk : float) :
  Forall well_formed (generate cpu mem disk).
Proof.
  assert (Hb : forall k x, Forall well_formed (block k x)).
  { intros k x. rewrite block_cases.
    destruct (ne x x); [|destruct (gt_int x (high k));
                         [|destruct (lt_int x (low k))]];
      try apply Forall_nil; apply Forall_cons; try apply Forall_nil;
      destruct k; unfold well_formed; simpl;
      (split; [tauto|split; [lia|split; discriminate]]). }
  rewrite generate_blocks. rewrite !Forall_app.
  repeat split; try apply Hb.
  apply Forall_cons; [|apply Forall_nil].
  unfold well_formed. simpl.
  split; [tauto|split; [lia|split; discriminate]].
Qed.

(** ** More on the fetcher *)

Ltac split_innermost :=
  match goal with
  | |- context [match ?x with _ => _ end] =>
      lazymatch x with
      | context [match _ with _ => _ end] => fail
      | _ => destruct x eqn:?
      end
  end.

Ltac use_facts :=
  match goal with
  | H : lookup _ _ = _ |- _ => rewrite H
  | H : _ = @None float |- _ => rewrite H
  | H : _ = @Some float _ |- _ => rewrite H
  | H : truthy _ = _ |- _ => rewrite H
  | H : (400 <=? _) && (_ <? 600) = _ |- _ => rewrite H
  end.

Ltac evaluate :=
  repeat (repeat first [ progress simpl
                       | rewrite seq_index_0 | rewrite seq_index_1
                       | rewrite seq_index_last
                       | use_facts ];
          try reflexivity; try congruence; try split_innermost).

Ltac open_fetched :=
  unfold fetched, q, try_except, bind, requests_get, raise_for_status, json,
    lift, ret, raise.

Section FetcherSamples.

Variable env_PROM_URL : option string.
Variable float_of_str : string -> option float.

Lemma fetched_instant (query : string) (code : Z) (data : pyval)
    (e : list (string * pyval)) (rest : list pyval) (ts : pyval) (s : string)
    (more : list pyval) (f : float) :
  ~ http_error code ->
  success_body (PList (PDict e :: rest)) data ->
  lookup "value" e = Some (PList (ts :: PStr s :: more)) ->
  float_of_str s = Some f ->
  fetched env_PROM_URL float_of_str query
    (Responded (mkResponse code (Some data))) = f.
Proof.
  intros Hcode (d & dd & -> & Hstatus & Hdata & Hresult) Hv Hs.
  apply http_ok_test in Hcode. open_fetched. evaluate.
Qed.

Lemma fetched_range (query : string) (code : Z) (data : pyval)
    (e : list (string * pyval)) (rest series : list pyval) (ts : pyval)
    (s : string) (more : list pyval) (f : float) :
  ~ http_error code ->
  success_body (PList (PDict e :: rest)) data ->
  lookup "value" e = None ->
  lookup "values" e
  = Some (PList (series ++ [PList (ts :: PStr s :: more)])) ->
  float_of_str s = Some f ->
  fetched env_PROM_URL float_of_str query
    (Responded (mkResponse code (Some data))) = f.
Proof.
  intros Hcode (d & dd & -> & Hstatus & Hdata & Hresult) Hv Hvs Hs.
  apply http_ok_test in Hcode. open_fetched. evaluate.
Qed.

Variable network : trace -> Request -> http_outcome.

(** X9: on a successful answer whose first entry carries an instant sample
    [value = [timestamp, s, ...]] with [s] a string that [float] parses to
    [f], [q] returns [f], after one request. *)
Theorem q_returns_instant_sample (query : string) (tr : trace) (code : Z)
    (data : pyval) (e : list (string * pyval)) (rest : list pyval)
    (ts : pyval) (s : string) (more : list pyval) (f : float) :
  network tr (request_for env_PROM_URL query)
  = Responded (mkResponse code (Some data)) ->
  ~ http_error code ->
  success_body (PList (PDict e :: rest)) data ->
  lookup "value" e = Some (PList (ts :: PStr s :: more)) ->
  float_of_str s = Some f ->
  q env_PROM_URL float_of_str network query tr
  = (Ok f, (tr ++ [request_for env_PROM_URL query])%list).
Proof.
  intros Hnet Hcode Hbody Hv Hs.
  rewrite q_run, Hnet.
  rewrite (fetched_instant query code data e rest ts s more f);
    auto.
Qed.

(** X10: on a successful answer whose first entry has no [value] but a
    [values] series, [q] returns the sample of the last point of the
    series. *)
Theorem q_returns_last_of_range (query : string) (tr : trace) (code : Z)
    (data : pyval) (e : list (string * pyval)) (rest series : list pyval)
    (ts : pyval) (s : string) (more : list pyval) (f : float) :
  network tr (request_for env_PROM_URL query)
  = Responded (mkResponse code (Some data)) ->
  ~ http_error code ->
  success_body (PList (PDict e :: rest)) data ->
  lookup "value" e = None ->
  lookup "values" e
  = Some (PList (series ++ [PList (ts :: PStr s :: more)])) ->
  float_of_str s = Some f ->
  q env_PROM_URL float_of_str network query tr
  = (Ok f, (tr ++ [request_for env_PROM_URL query])%list).
Proof.
  intros Hnet Hcode Hbody Hv Hvs Hs.
  rewrite q_run, Hnet.
  rewrite (fetched_range query code data e rest series ts s more f);
    auto.
Qed.

(** X11: only the first entry of the result list counts.  Two successful
    answers whose result lists start with the same entry give the same
    float, whatever the later entries, the other fields of the body, the
    status codes and the queries are. *)
Theorem q_reads_first_entry_only
    (network' : trace -> Request -> http_outcome) (query query' : string)
    (tr tr' : trace) (code code' : Z) (data data' : pyval) (x : pyval)
    (rest rest' : list pyval) :
  network tr (request_for env_PROM_URL query)
  = Responded (mkResponse code (Some data)) ->
  network' tr' (request_for env_PROM_URL query')
  = Responded (mkResponse code' (Some data')) ->
  ~ http_error code ->
  ~ http_error code' ->
  success_body (PList (x :: rest)) data ->
  success_body (PList (x :: rest')) data' ->
  fst (q env_PROM_URL float_of_str network query tr)
  = fst (q env_PROM_URL float_of_str network' query' tr').
Proof.
  intros Hnet Hnet' Hcode Hcode'
    (d & dd & -> & Hstatus & Hdata & Hresult)
    (d' & dd' & -> & Hstatus' & Hdata' & Hresult').
  rewrite !q_run, Hnet, Hnet'. simpl. f_equal.
  apply http_ok_test in Hcode, Hcode'. open_fetched. evaluate.
Qed.

(** X12: a sample pair that is too short, or an empty [values] series,
    gives NaN. *)
Theorem q_nan_on_short_sample (query : string) (tr : trace) (code : Z)
    (data : pyval) (e : list (string * pyval)) (rest : list pyval) :
  network tr (request_for env_PROM_URL query)
  = Responded (mkResponse code (Some data)) ->
  success_body (PList (PDict e :: rest)) data ->
  (exists ts, lookup "value" e = Some (PList [ts]))
  \/ (lookup "value" e = None /\ lookup "values" e = Some (PList []))
  \/ (lookup "value" e = None
      /\ exists series ts,
           lookup "values" e = Some (PList (series ++ [PList [ts]]))) ->
  q env_PROM_URL float_of_str network query tr
  = (Ok nan, (tr ++ [request_for env_PROM_URL query])%list).
Proof.
  intros Hnet (d & dd & -> & Hstatus & Hdata & Hresult) H.
  rewrite q_run, Hnet. f_equal. f_equal. open_fetched.
  destruct H as [(ts & Hv)|[(Hv & Hvs)|(Hv & series & ts & Hvs)]];
    evaluate.
Qed.

(** X13: a sample given as a JSON number instead of a string is accepted:
    a float is returned as it is, an integer is rounded to the nearest
    float, and an integer too large for a float gives NaN. *)
Theorem q_on_numeric_sample (query : string) (tr : trace) (code : Z)
    (data : pyval) (e : list (string * pyval)) (rest : list pyval)
    (ts x : pyval) (more : list pyval) :
  network tr (request_for env_PROM_URL query)
  = Responded (mkResponse code (Some data)) ->
  ~ http_error code ->
  success_body (PList (PDict e :: rest)) data ->
  lookup "value" e = Some (PList (ts :: x :: more)) ->
  (forall f, x = PFloat f ->
     q env_PROM_URL float_of_str network query tr
     = (Ok f, (tr ++ [request_for env_PROM_URL query])%list))
  /\ (forall z, x = PInt z ->
        q env_PROM_URL float_of_str network query tr
        = (Ok (match of_int z with
               | S754_infinity _ => nan
               | f => f
               end),
           (tr ++ [request_for env_PROM_URL query])%list)).
Proof.
  intros Hnet Hcode (d & dd & -> & Hstatus & Hdata & Hresult) Hv.
  apply http_ok_test in Hcode.
  split; intros v ->; rewrite q_run, Hnet; f_equal; f_equal; open_fetched;
    evaluate.
Qed.

End FetcherSamples.

Lemma q_returns_instant_sample_witness :
  q None float_of_digits
    (answers (ok_with (PList [instant "42"; instant "7"]))) "up" []
  = (Ok (of_int 42), [request_for None "up"]).
Proof.
  apply (q_returns_instant_sample None float_of_digits
           (answers (ok_with (PList [instant "42"; instant "7"]))) "up" []
           200 (body_with (PList [instant "42"; instant "7"]))
           [("metric", PDict []);
            ("value", PList [PFloat (of_int 1700000000); PStr "42"])]
           [instant "7"] (PFloat (of_int 1700000000)) "42" [] (of_int 42)
           eq_refl
           ltac:(unfold http_error; lia)
           ltac:(do 2 eexists; repeat split; reflexivity)
           eq_refl eq_refl).
Defined.

Lemma q_returns_last_of_range_witness :
  q None float_of_digits
    (answers (ok_with (PList [PDict
       [("values", PList [PList [PInt 1; PStr "7"];
                          PList [PInt 2; PStr "9"]])]]))) "up" []
  = (Ok (of_int 9), [request_for None "up"]).
Proof.
  apply (q_returns_last_of_range None float_of_digits
           (answers (ok_with (PList [PDict
              [("values", PList [PList [PInt 1; PStr "7"];
                                 PList [PInt 2; PStr "9"]])]]))) "up" []
           200 _ _ [] [PList [PInt 1; PStr "7"]] (PInt 2) "9" [] (of_int 9)
           eq_refl
           ltac:(unfold http_error; lia)
           ltac:(do 2 eexists; repeat split; reflexivity)
           eq_refl eq_refl eq_refl).
Defined.

Lemma q_reads_first_entry_only_witness :
  fst (q None float_of_digits
         (answers (ok_with (PList [instant "42"]))) "up" [])
  = fst (q None float_of_digits
           (answers (Responded (mkResponse 201 (Some (PDict
              [("data", PDict [("result",
                                PList [instant "42"; instant "1"])]);
               ("status", PStr "success")])))))
           "node_load1" [request_for None "up"]).
Proof.
  apply (q_reads_first_entry_only None float_of_digits
           (answers (ok_with (PList [instant "42"])))
           (answers (Responded (mkResponse 201 (Some (PDict
              [("data", PDict [("result",
                                PList [instant "42"; instant "1"])]);
               ("status", PStr "success")])))))
           "up" "node_load1" [] [request_for None "up"] 200 201 _ _
           (instant "42") [] [instant "1"] eq_refl eq_refl
           ltac:(unfold http_error; lia) ltac:(unfold http_error; lia)
           ltac:(do 2 eexists; repeat split; reflexivity)
           ltac:(do 2 eexists; repeat split; reflexivity)).
Defined.

Lemma q_nan_on_short_sample_witness :
  q None float_of_digits
    (answers (ok_with (PList [PDict [("value", PList [PInt 1])]]))) "up" []
  = (Ok nan, [request_for None "up"])
  /\ q None float_of_digits
       (answers (ok_with (PList [PDict [("values", PList [])]]))) "up" []
     = (Ok nan, [request_for None "up"]).
Proof.
  split.
  - apply (q_nan_on_short_sample None float_of_digits
             (answers (ok_with (PList [PDict [("value", PList [PInt 1])]])))
             "up" [] 200 _ [("value", PList [PInt 1])] [] eq_refl
             ltac:(do 2 eexists; repeat split; reflexivity)).
    left. exists (PInt 1). reflexivity.
  - apply (q_nan_on_short_sample None float_of_digits
             (answers (ok_with (PList [PDict [("values", PList [])]])))
             "up" [] 200 _ [("values", PList [])] [] eq_refl
             ltac:(do 2 eexists; repeat split; reflexivity)).
    right. left. split; reflexivity.
Defined.

Lemma q_on_numeric_sample_witness :
  q None float_of_digits
    (answers (ok_with (PList [PDict [("value", PList [PInt 1; PInt 3])]])))
    "up" []
  = (Ok (of_int 3), [request_for None "up"])
  /\ q None float_of_digits
       (answers (ok_with (PList [PDict
          [("value", PList [PInt 1; PInt (2 ^ 1024)])]])))
       "up" []
     = (Ok nan, [request_for None "up"]).
Proof.
  split.
  - apply (proj2 (q_on_numeric_sample None float_of_digits
             (answers (ok_with (PList [PDict
                [("value", PList [PInt 1; PInt 3])]])))
             "up" [] 200 _ [("value", PList [PInt 1; PInt 3])] []
             (PInt 1) (PInt 3) [] eq_refl
             ltac:(unfold http_error; lia)
             ltac:(do 2 eexists; repeat split; reflexivity)
             eq_refl) 3 eq_refl).
  - apply (proj2 (q_on_numeric_sample None float_of_digits
             (answers (ok_with (PList [PDict
                [("value", PList [PInt 1; PInt (2 ^ 1024)])]])))
             "up" [] 200 _ [("value", PList [PInt 1; PInt (2 ^ 1024)])] []
             (PInt 1) (PInt (2 ^ 1024)) [] eq_refl
             ltac:(unfold http_error; lia)
             ltac:(do 2 eexists; repeat split; reflexivity)
             eq_refl) (2 ^ 1024) eq_refl).
Defined.

(** ** More on the handler *)

Section HandlerRuns.

Variable env_PROM_URL : option string.
Variable float_of_str : string -> option float.
Variable network : trace -> Request -> http_outcome.

(** The float fetched for a metric during a run started after [tr]. *)
Lemma insights_now_by_metric (tr : trace) :
  exists c m d,
    insights_now env_PROM_URL float_of_str network tr
    = (Ok (response_of c m d),
       (((tr ++ [cpu_request env_PROM_URL]) ++ [mem_request env_PROM_URL])
        ++ [disk_request env_PROM_URL])%list)
    /\ (forall k,
          pick k c m d
          = fetched env_PROM_URL float_of_str (query_of k)
              (outcome_of env_PROM_URL network tr k)).
Proof.
  do 3 eexists. split; [apply insights_now_run|].
  intros k. destruct k; reflexivity.
Qed.

Lemma raw_of_response (k : metric) (c m d : float) :
  lookup (raw_key k) (raw (response_of c m d)) = Some (PFloat (pick k c m d)).
Proof. destruct k; reflexivity. Qed.

(** X14: whatever the network answers, one run of [insights_now] sends
    exactly three requests, for the CPU, the memory and the disk query in
    this order, each to [PROM_URL/api/v1/query] with a time-out of 8: no
    retry after a failure and no skipped fetch. *)
Theorem three_requests_in_order (tr : trace) :
  snd (insights_now env_PROM_URL float_of_str network tr)
  = (tr ++
     [mkRequest (PROM_URL env_PROM_URL ++ "/api/v1/query")
        [("query", cpu_query)] 8;
      mkRequest (PROM_URL env_PROM_URL ++ "/api/v1/query")
        [("query", mem_query)] 8;
      mkRequest (PROM_URL env_PROM_URL ++ "/api/v1/query")
        [("query", disk_query)] 8])%list.
Proof.
  rewrite insights_now_run. simpl. rewrite <- !app_assoc. reflexivity.
Qed.


(** X16: when the fetch for one metric fails, the run still answers "ok";
    [raw] holds NaN for that metric and the metric's only insight is its
    missing-metrics warning, whatever happens to the other two fetches. *)
Theorem failed_fetch_one_warning (k : metric) (tr : trace) :
  fetch_failure float_of_str (outcome_of env_PROM_URL network tr k) ->
  exists resp tr',
    insights_now env_PROM_URL float_of_str network tr = (Ok resp, tr')
    /\ status resp = "ok"
    /\ lookup (raw_key k) (raw resp) = Some (PFloat nan)
    /\ filter (specific k) (insights resp) = [missing_insight k].
Proof.
  intros H. destruct (insights_now_by_metric tr) as (c & m & d & Hrun & Hk).
  pose proof (Hk k) as Hv.
  rewrite (fetched_failure _ _ _ _ H) in Hv.
  exists (response_of c m d). eexists. split; [exact Hrun|].
  split; [reflexivity|]. rewrite raw_of_response, Hv.
  split; [reflexivity|].
  simpl. rewrite specific_generate, block_cases, Hv. reflexivity.
Qed.

(** X17: when all three fetches fail, the response is still "ok" and its
    insights are the three missing-metrics warnings followed by the cost
    hint. *)
Theorem all_fetches_fail (tr : trace) :
  (forall k,
     fetch_failure float_of_str (outcome_of env_PROM_URL network tr k)) ->
  exists resp tr',
    insights_now env_PROM_URL float_of_str network tr = (Ok resp, tr')
    /\ status resp = "ok"
    /\ insights resp
       = [no_cpu_metrics; no_mem_metrics; no_disk_metrics; cost_hint].
Proof.
  intros H. rewrite insights_now_run.
  pose proof (fetched_failure env_PROM_URL float_of_str cpu_query _ (H CPU))
    as Hc.
  pose proof (fetched_failure env_PROM_URL float_of_str mem_query _
                (H Memory)) as Hm.
  pose proof (fetched_failure env_PROM_URL float_of_str disk_query _
                (H Disk)) as Hd.
  simpl in Hc, Hm, Hd. rewrite Hc, Hm, Hd.
  do 2 eexists. repeat split.
Qed.

(** X18: when the answer for one metric is successful and its first entry
    carries an instant sample that parses to [f], [raw] holds [f] for that
    metric and the metric's insights are those the rules give for [f]. *)
Theorem sample_drives_insight (k : metric) (tr : trace) (code : Z)
    (data : pyval) (e : list (string * pyval)) (rest : list pyval)
    (ts : pyval) (s : string) (more : list pyval) (f : float) :
  outcome_of env_PROM_URL network tr k
  = Responded (mkResponse code (Some data)) ->
  ~ http_error code ->
  success_body (PList (PDict e :: rest)) data ->
  lookup "value" e = Some (PList (ts :: PStr s :: more)) ->
  float_of_str s = Some f ->
  exists resp tr',
    insights_now env_PROM_URL float_of_str network tr = (Ok resp, tr')
    /\ lookup (raw_key k) (raw resp) = Some (PFloat f)
    /\ filter (specific k) (insights resp) = block k f.
Proof.
  intros Hout Hcode Hbody Hv Hs.
  destruct (insights_now_by_metric tr) as (c & m & d & Hrun & Hk).
  pose proof (Hk k) as Hval.
  rewrite Hout in Hval.
  rewrite (fetched_instant _ _ _ code data e rest ts s more f) in Hval
    by assumption.
  exists (response_of c m d). eexists. split; [exact Hrun|].
  rewrite raw_of_response, Hval. split; [reflexivity|].
  simpl. rewrite specific_generate, Hval. reflexivity.
Qed.

(** X19: the URL [healthz] reports under [prom] is the base of the URL
    every request of [insights_now] goes to; it is the environment's
    [PROM_URL], or [http://localhost:9090] when that is not set. *)
Theorem healthz_reports_queried_backend (tr tr0 : trace) :
  exists d u,
    fst (healthz env_PROM_URL tr0) = Ok (PDict d)
    /\ lookup "prom" d = Some (PStr u)
    /\ Forall (fun r => url r = u ++ "/api/v1/query" /\ timeout r = 8)
         (skipn (List.length tr)
            (snd (insights_now env_PROM_URL float_of_str network tr)))
    /\ List.length
         (skipn (List.length tr)
            (snd (insights_now env_PROM_URL float_of_str network tr)))
       = 3%nat
    /\ u = match env_PROM_URL with
           | Some v => v
           | None => "http://localhost:9090"
           end.
Proof.
  do 2 eexists. split; [reflexivity|]. split; [reflexivity|].
  rewrite insights_now_run. cbn [snd].
  rewrite <- !app_assoc. rewrite skipn_app, Nat.sub_diag, skipn_all.
  simpl. repeat split; repeat constructor.
Qed.

End HandlerRuns.

Lemma failed_fetch_one_warning_witness :
  exists resp tr',
    insights_now None float_of_digits second_times_out [] = (Ok resp, tr')
    /\ status resp = "ok"
    /\ lookup (raw_key Memory) (raw resp) = Some (PFloat nan)
    /\ filter (specific Memory) (insights resp) = [missing_insight Memory].
Proof.
  apply (failed_fetch_one_warning None float_of_digits second_times_out
           Memory []).
  exact (failed_request float_of_digits Timeout).
Defined.

Lemma all_fetches_fail_witness :
  exists resp tr',
    insights_now None float_of_digits (answers (Failed ConnectionError)) []
    = (Ok resp, tr')
    /\ status resp = "ok"
    /\ insights resp
       = [no_cpu_metrics; no_mem_metrics; no_disk_metrics; cost_hint].
Proof.
  apply (all_fetches_fail None float_of_digits
           (answers (Failed ConnectionError)) []).
  intros k. destruct k; exact (failed_request float_of_digits ConnectionError).
Defined.

Lemma sample_drives_insight_witness :
  exists resp tr',
    insights_now None float_of_digits
      (answers (ok_with (PList [instant "90"]))) [] = (Ok resp, tr')
    /\ lookup (raw_key CPU) (raw resp) = Some (PFloat (of_int 90))
    /\ filter (specific CPU) (insights resp) = block CPU (of_int 90).
Proof.
  apply (sample_drives_insight None float_of_digits
           (answers (ok_with (PList [instant "90"]))) CPU [] 200
           (body_with (PList [instant "90"]))
           [("metric", PDict []);
            ("value", PList [PFloat (of_int 1700000000); PStr "90"])]
           [] (PFloat (of_int 1700000000)) "90" [] (of_int 90)
           eq_refl
           ltac:(unfold http_error; lia)
           ltac:(do 2 eexists; repeat split; reflexivity)
           eq_refl eq_refl).
Defined.
